(** * Verification of [evaluate.py]

    A shallow embedding of the benchmark driver [src/evaluate.py]: the
    [EvaluationResult] counters, the path arithmetic of [pathlib], the
    evaluation loop with its file reads, subprocess calls and console
    output, the summary and [main].

    Modelling conventions.
    - Python [int] is unbounded: counters are [Z].
    - Python [str] is modelled by [string], read as the UTF-8 encoding of
      the text.  The two needles the program uses (["/"] and
      ["Assertion failed"]) are ASCII, and UTF-8 is self-synchronising, so
      replacing or searching them byte-wise agrees with doing so on code
      points.
    - The outside world (pandas, the file system, the [node] interpreter)
      is an oracle that may depend on everything that happened before; the
      program is written in a monad that threads the history of events and
      propagates Python exceptions.
    - [float] arithmetic and the [.2f] formatting are an interface
      ([PyFloat]); nothing below depends on rounding.
    - The dataset comes in two forms.  [Row] and [DataFrame] are a frame
      whose cells are strings, with [evaluate_row], [evaluate_model] and
      [main_with] the program on it.  [Series] and [Frame] are a frame
      whose cells can be anything the loader produces, with
      [evaluate_series], [evaluate_frame] and [main_on] the program on it;
      the two agree on frames of strings ([main_on_loader_of]). *)

From Stdlib Require Import ZArith List String Ascii Bool Lia.
From Stdlib Require Import DecimalString QArith Permutation.
Import ListNotations.
Open Scope string_scope.
Open Scope Z_scope.

(** ** Python strings *)

Module PyStr.

(** [not s] for a [str]: the empty string is the only falsy one. *)
Definition is_empty (s : string) : bool :=
  match s with
  | EmptyString => true
  | String _ _ => false
  end.

(** [s.startswith(p)] *)
Fixpoint startswith (p s : string) : bool :=
  match p, s with
  | EmptyString, _ => true
  | String _ _, EmptyString => false
  | String a p', String b s' => Ascii.eqb a b && startswith p' s'
  end.

(** [needle in hay]: some suffix of [hay] starts with [needle]. *)
Fixpoint contains (needle hay : string) : bool :=
  startswith needle hay ||
  match hay with
  | EmptyString => false
  | String _ hay' => contains needle hay'
  end.

(** [s.replace(old, new)] for one-character [old] and [new]. *)
Fixpoint replace (old new : ascii) (s : string) : string :=
  match s with
  | EmptyString => EmptyString
  | String c s' =>
      String (if Ascii.eqb c old then new else c) (replace old new s')
  end.

(** Does the character occur in the string? *)
Fixpoint has_char (c : ascii) (s : string) : bool :=
  match s with
  | EmptyString => false
  | String d s' => Ascii.eqb d c || has_char c s'
  end.

(** [s.split(sep)] for a one-character separator. *)
Fixpoint split (sep : ascii) (s : string) : list string :=
  match s with
  | EmptyString => [EmptyString]
  | String c s' =>
      if Ascii.eqb c sep then EmptyString :: split sep s'
      else match split sep s' with
           | [] => [String c EmptyString]
           | w :: ws => String c w :: ws
           end
  end.

(** [sep.join(ws)] *)
Fixpoint join (sep : string) (ws : list string) : string :=
  match ws with
  | [] => EmptyString
  | [w] => w
  | w :: ws' => w ++ sep ++ join sep ws'
  end.

(** [c * n] for a one-character string [c]. *)
Fixpoint repeat (c : ascii) (n : nat) : string :=
  match n with
  | O => EmptyString
  | S n' => String c (repeat c n')
  end.

(** [s[a:b]] for [0 <= a <= b] *)
Definition slice (a b : nat) (s : string) : string :=
  String.substring a (b - a) s.

(** [s[a:]] for [0 <= a] *)
Definition slice_from (a : nat) (s : string) : string :=
  String.substring a (String.length s - a) s.

(** [str(z)] for an [int], as long as [z] has no more digits than the
    interpreter converts (CPython 3.11 raises [ValueError] beyond 4300
    digits; see [printable] below). *)
Definition of_int (z : Z) : string := NilZero.string_of_int (Z.to_int z).

End PyStr.

(** ** The counters *)

(** [@dataclass class EvaluationResult] *)
Record EvaluationResult : Type := mkResult {
  total : Z;
  correct : Z;
  failed : Z;
  assertion_failed : Z
}.

(** [EvaluationResult()]: every field defaults to 0. *)
Definition EvaluationResult_init : EvaluationResult := mkResult 0 0 0 0.

(** The [exception_failed] property. *)
Definition exception_failed (self : EvaluationResult) : Z :=
  failed self - assertion_failed self.

(** [update_counts], returning the mutated object. *)
Definition update_counts (self : EvaluationResult) (error_message : string)
  : EvaluationResult :=
  let self := mkResult (total self + 1) (correct self)
                       (failed self) (assertion_failed self) in
  if PyStr.is_empty error_message then
    mkResult (total self) (correct self + 1)
             (failed self) (assertion_failed self)
  else
    let self := mkResult (total self) (correct self)
                         (failed self + 1) (assertion_failed self) in
    if PyStr.contains "Assertion failed" error_message then
      mkResult (total self) (correct self)
               (failed self) (assertion_failed self + 1)
    else self.

(** Any finite sequence of [update_counts] calls on one object. *)
Definition update_many (r : EvaluationResult) (outcomes : list string)
  : EvaluationResult :=
  fold_left update_counts outcomes r.

(** ** [pathlib] (POSIX flavour)

    A path is its root (empty, ["/"] or ["//"]) and the list of its
    components.  Parsing drops empty components and ["."]; joining with an
    absolute segment discards the left operand. *)

Module Pathlib.

Record Path : Type := mkPath {
  root : string;
  parts : list string
}.

(** [posixpath.splitroot]: the root is ["/"], or ["//"] when the text
    starts with exactly two slashes. *)
Definition splitroot (p : string) : string * string :=
  if negb (String.eqb (PyStr.slice 0 1 p) "/") then ("", p)
  else if negb (String.eqb (PyStr.slice 1 2 p) "/")
          || String.eqb (PyStr.slice 2 3 p) "/"
  then ("/", PyStr.slice_from 1 p)
  else (PyStr.slice 0 2 p, PyStr.slice_from 2 p).

Definition keep_component (x : string) : bool :=
  negb (PyStr.is_empty x) && negb (String.eqb x ".").

(** [Path(s)] *)
Definition parse (s : string) : Path :=
  let (rt, rel) := splitroot s in
  mkPath rt (filter keep_component (PyStr.split "/" rel)).

(** [p / segment] *)
Definition joinpath (p : Path) (segment : string) : Path :=
  if PyStr.startswith "/" segment then parse segment
  else mkPath (root p) (parts p ++ parts (parse segment)).

(** [str(p)] *)
Definition to_str (p : Path) : string :=
  let s := root p ++ PyStr.join "/" (parts p) in
  if PyStr.is_empty s then "." else s.

End Pathlib.

Import Pathlib.

Notation "p </> s" := (joinpath p s) (at level 40, left associativity).

(** ** Module constants *)

Definition PROJECT_ROOT : Path := parse "".
Definition BASE_RESULTS_PATH : Path := PROJECT_ROOT </> "results-cleaned".
Definition DATA_FILE : Path := PROJECT_ROOT </> "humaneval_js.jsonl".
Definition LLM_MODELS : list string := [].

(** ** The outside world *)

(** The exceptions that the calls of this program can raise. *)
Inductive exn : Type :=
| FileNotFoundError
| PermissionError
| IsADirectoryError
| UnicodeDecodeError
| ValueError
| OSError
| ZeroDivisionError
| OverflowError
| AttributeError
| TypeError.

Inductive result (A : Type) : Type :=
| Ok (a : A)
| Raise (e : exn).
Arguments Ok {A} a.
Arguments Raise {A} e.

(** One row of the dataset, with the two columns the program reads. *)
Record Row : Type := mkRow {
  task_id : string;
  test : string
}.

(** The data frame, as [iterrows] walks it. *)
Definition DataFrame : Type := list Row.

(** [subprocess.CompletedProcess] *)
Record CompletedProcess : Type := mkProcess {
  returncode : Z;
  stdout : string;
  stderr : string
}.

(** What the program does to the world, in order. *)
Inductive event : Type :=
| ReadJson (path : Path)
| OpenRead (path : Path)
| Run (args : list string)
| Print (line : string).

(** How the world answers, given all that happened before the call. *)
Record World : Type := mkWorld {
  (** [pd.read_json(path, lines=True)] *)
  pd_read_json : list event -> Path -> result DataFrame;
  (** [path.open("r", encoding="utf-8")] followed by [f.read()] *)
  open_read : list event -> Path -> result string;
  (** [subprocess.run(args, capture_output=True, text=True, encoding='utf-8')] *)
  subprocess_run : list event -> list string -> result CompletedProcess
}.

(** ** The monad of the program: history of events and exceptions *)

Definition M (A : Type) : Type :=
  World -> list event -> list event * result A.

Definition ret {A} (a : A) : M A := fun _ h => (h, Ok a).

Definition bind {A B} (m : M A) (k : A -> M B) : M B :=
  fun w h =>
    match m w h with
    | (h', Ok a) => k a w h'
    | (h', Raise e) => (h', Raise e)
    end.

Notation "x <- m ;; k" := (bind m (fun x => k))
  (at level 61, m at next level, right associativity).
Notation "m ;;; k" := (bind m (fun _ => k))
  (at level 61, right associativity).

(** A pure computation that may raise. *)
Definition lift {A} (r : result A) : M A := fun _ h => (h, r).

(** [try: x = body / except FileNotFoundError: ...]: [None] when the
    handler is to run; any other exception propagates. *)
Definition try_except_FileNotFoundError {A} (body : M A) : M (option A) :=
  fun w h =>
    match body w h with
    | (h', Ok a) => (h', Ok (Some a))
    | (h', Raise FileNotFoundError) => (h', Ok None)
    | (h', Raise e) => (h', Raise e)
    end.

(** [for x in xs: s = body(x, s)] *)
Fixpoint for_in {A S} (xs : list A) (body : A -> S -> M S) (s : S) : M S :=
  match xs with
  | [] => ret s
  | x :: xs' => s' <- body x s ;; for_in xs' body s'
  end.

Definition print (line : string) : M unit :=
  fun _ h => ((h ++ [Print line])%list, Ok tt).

Definition read_json (path : Path) : M DataFrame :=
  fun w h => ((h ++ [ReadJson path])%list, pd_read_json w h path).

Definition open_and_read (path : Path) : M string :=
  fun w h => ((h ++ [OpenRead path])%list, open_read w h path).

Definition run (args : list string) : M CompletedProcess :=
  fun w h => ((h ++ [Run args])%list, subprocess_run w h args).

(** ** Executing one program *)

Definition LF : string := String "010" EmptyString.

(** [execute_js_test] *)
Definition execute_js_test (test_code : string) : M string :=
  process <- run ["node"; "-e"; test_code] ;;
  ret (stderr process).

(** ** Evaluating one model *)

(** The path of the candidate file of a task. *)
Definition candidate_path (model_path : Path) (row : Row) : Path :=
  let task_id := PyStr.replace "/" "-" (task_id row) in
  model_path </> (task_id ++ ".js").

(** The program that is run: [f"{llm_response}\n\n{row.test}"]. *)
Definition test_program (llm_response : string) (row : Row) : string :=
  llm_response ++ LF ++ LF ++ test row.

(** The body of the loop of [evaluate_model]; [continue] returns the
    counters as they are. *)
Definition evaluate_row (model_path : Path) (row : Row)
    (results : EvaluationResult) : M EvaluationResult :=
  let file_path := candidate_path model_path row in
  r <- try_except_FileNotFoundError (open_and_read file_path) ;;
  match r with
  | None =>
      print ("Warning: File not found, skipping: " ++ to_str file_path) ;;;
      ret results
  | Some llm_response =>
      let test_code := test_program llm_response row in
      error_output <- execute_js_test test_code ;;
      ret (update_counts results error_output)
  end.

(** [evaluate_model] *)
Definition evaluate_model (model_name : string) (df : DataFrame)
  : M EvaluationResult :=
  let results := EvaluationResult_init in
  let model_path := BASE_RESULTS_PATH </> model_name in
  for_in df (evaluate_row model_path) results.

(** ** Floating point, as an interface

    [int_truediv a b] is Python's [a / b] on two [int]s with [b] non-zero:
    the double nearest to the quotient, or [None] where Python raises
    [OverflowError] because the quotient is beyond the range of a double.
    [float_of_int] is the conversion that formatting an [int] with [.2f]
    performs.  The two laws are the facts about doubles that the program
    relies on: a quotient of magnitude at most one is in range, and so is
    the integer zero. *)

Class PyFloat : Type := {
  float : Type;
  int_truediv : Z -> Z -> option float;
  float_mul_int : float -> Z -> float;
  float_of_int : Z -> option float;
  float_format_2f : float -> string;
  int_truediv_fits :
    forall a b, b <> 0 -> Z.abs a <= Z.abs b -> int_truediv a b <> None;
  float_of_int_zero : float_of_int 0 <> None
}.

Section Summary.

Context {F : PyFloat}.

(** A Python number: the rates are a [float] or the [int] 0. *)
Inductive number : Type :=
| Int (z : Z)
| Float (x : float).

(** [a / b] on two [int]s. *)
Definition truediv (a b : Z) : result float :=
  if b =? 0 then Raise ZeroDivisionError
  else match int_truediv a b with
       | Some q => Ok q
       | None => Raise OverflowError
       end.

(** [a / b * 100] *)
Definition percentage (a b : Z) : result number :=
  match truediv a b with
  | Ok q => Ok (Float (float_mul_int q 100))
  | Raise e => Raise e
  end.

(** [(results.correct / results.total * 100) if results.total > 0 else 0] *)
Definition pass_rate (results : EvaluationResult) : result number :=
  if total results >? 0
  then percentage (correct results) (total results)
  else Ok (Int 0).

(** [(results.exception_failed / results.failed * 100)
     if results.failed > 0 else 0] *)
Definition exception_rate (results : EvaluationResult) : result number :=
  if failed results >? 0
  then percentage (exception_failed results) (failed results)
  else Ok (Int 0).

(** [f"{n:.2f}"] *)
Definition format_2f (n : number) : result string :=
  match n with
  | Float x => Ok (float_format_2f x)
  | Int z =>
      match float_of_int z with
      | Some x => Ok (float_format_2f x)
      | None => Raise OverflowError
      end
  end.

(** [print_summary] *)
Definition print_summary (model_name : string) (results : EvaluationResult)
  : M unit :=
  pass_rate <- lift (pass_rate results) ;;
  exception_rate <- lift (exception_rate results) ;;
  print (PyStr.repeat "-" 60) ;;;
  print ("Results for model: " ++ model_name) ;;;
  print (PyStr.repeat "-" 60) ;;;
  pass_rate_2f <- lift (format_2f pass_rate) ;;
  print ("Strict accuracy:           " ++ pass_rate_2f ++ " %") ;;;
  print (" Total entries validated:  " ++ PyStr.of_int (total results)) ;;;
  print (" Successful:               " ++ PyStr.of_int (correct results)) ;;;
  print (" Failed (Total):           " ++ PyStr.of_int (failed results)) ;;;
  print ("  - Assertion Errors:      "
         ++ PyStr.of_int (assertion_failed results)) ;;;
  exception_rate_2f <- lift (format_2f exception_rate) ;;
  print ("  - Exception Errors:      "
         ++ PyStr.of_int (exception_failed results)
         ++ " (" ++ exception_rate_2f ++ " % of all failures)") ;;;
  print (PyStr.repeat "-" 60).

(** The body of [main], for any configured list of models. *)
Definition main_with (models : list string) : M unit :=
  r <- try_except_FileNotFoundError (read_json DATA_FILE) ;;
  match r with
  | None =>
      print ("Error: The data file '" ++ to_str DATA_FILE
             ++ "' was not found.")
  | Some df =>
      for_in models
        (fun llm _ =>
           model_results <- evaluate_model llm df ;;
           print_summary llm model_results)
        tt
  end.

(** [main], with the list of models of the module. *)
Definition main : M unit := main_with LLM_MODELS.

End Summary.

(** ** The data frame as the loader returns it

    [Row] above is a row whose two cells are strings.  The loader decides
    what the fields of the file become, and nothing in the program checks
    it: a cell can be a number, [None], a list, or the column can be
    absent.  Below is the program on any frame.  Of a cell that is not a
    [str] the program uses two things only: the text that formatting it
    gives, and the exception that calling [.replace("/", "-")] on it raises
    ([AttributeError] when the value has no such method, [TypeError] when
    it has one with another signature). *)

Inductive cell : Type :=
| Str (s : string)
| NotStr (text : string) (replace_raises : exn).

(** A row as [iterrows] yields it; [None] is a column that the frame does
    not have. *)
Record Series : Type := mkSeries {
  task_id_cell : option cell;
  test_cell : option cell
}.

Definition Frame : Type := list Series.

(** [row.task_id.replace("/", "-")] *)
Definition task_id_replace (row : Series) : result string :=
  match task_id_cell row with
  | None => Raise AttributeError
  | Some (Str s) => Ok (PyStr.replace "/" "-" s)
  | Some (NotStr _ e) => Raise e
  end.

(** [f"{row.test}"] *)
Definition test_format (row : Series) : result string :=
  match test_cell row with
  | None => Raise AttributeError
  | Some (Str s) => Ok s
  | Some (NotStr text _) => Ok text
  end.

(** The body of the loop of [evaluate_model], on any row.  The task
    identifier is normalised before the [try]; the test is formatted after
    the candidate is read. *)
Definition evaluate_series (model_path : Path) (row : Series)
    (results : EvaluationResult) : M EvaluationResult :=
  task_id <- lift (task_id_replace row) ;;
  let file_path := model_path </> (task_id ++ ".js") in
  r <- try_except_FileNotFoundError (open_and_read file_path) ;;
  match r with
  | None =>
      print ("Warning: File not found, skipping: " ++ to_str file_path) ;;;
      ret results
  | Some llm_response =>
      test <- lift (test_format row) ;;
      let test_code := llm_response ++ LF ++ LF ++ test in
      error_output <- execute_js_test test_code ;;
      ret (update_counts results error_output)
  end.

(** [evaluate_model], on any frame. *)
Definition evaluate_frame (model_name : string) (df : Frame)
  : M EvaluationResult :=
  let results := EvaluationResult_init in
  let model_path := BASE_RESULTS_PATH </> model_name in
  for_in df (evaluate_series model_path) results.

(** [pd.read_json(path, lines=True)], whatever frame it returns. *)
Definition Loader : Type := list event -> Path -> result Frame.

Definition read_json_frame (load : Loader) (path : Path) : M Frame :=
  fun _ h => ((h ++ [ReadJson path])%list, load h path).

Section Frames.

Context {F : PyFloat}.

(** The body of [main], on any frame and for any list of models. *)
Definition main_on (load : Loader) (models : list string) : M unit :=
  r <- try_except_FileNotFoundError (read_json_frame load DATA_FILE) ;;
  match r with
  | None =>
      print ("Error: The data file '" ++ to_str DATA_FILE
             ++ "' was not found.")
  | Some df =>
      for_in models
        (fun llm _ =>
           model_results <- evaluate_frame llm df ;;
           print_summary llm model_results)
        tt
  end.

End Frames.

(** A row of strings as a row of the frame, and the loader of a world
    whose frames hold strings. *)
Definition series_of_row (row : Row) : Series :=
  mkSeries (Some (Str (task_id row))) (Some (Str (test row))).

Definition frame_of (df : DataFrame) : Frame := map series_of_row df.

Definition loader_of (w : World) : Loader :=
  fun h path =>
    match pd_read_json w h path with
    | Ok df => Ok (frame_of df)
    | Raise e => Raise e
    end.

(** ** Properties of histories *)

(** The programs handed to the interpreter, in order. *)
Fixpoint programs_run (h : list event) : list string :=
  match h with
  | [] => []
  | Run [_; _; code] :: h' => code :: programs_run h'
  | _ :: h' => programs_run h'
  end.

(** The lines printed, in order. *)
Fixpoint printed (h : list event) : list string :=
  match h with
  | [] => []
  | Print line :: h' => line :: printed h'
  | _ :: h' => printed h'
  end.

(** ** A float without rounding, and small worlds, to run the program *)

Module Sample.

(** [q] to two decimals, rounding half up. *)
Definition Q_format_2f (q : Q) : string :=
  let n := (Qnum q * 200 + Z.pos (Qden q)) / (2 * Z.pos (Qden q)) in
  let c := Z.abs n in
  (if n <? 0 then "-" else "")
  ++ PyStr.of_int (c / 100) ++ "."
  ++ PyStr.of_int (c / 10 mod 10) ++ PyStr.of_int (c mod 10).

(** Exact rationals in place of doubles. *)
Definition QFloat : PyFloat.
Proof.
  refine {| float := Q;
            int_truediv := fun a b => Some (Qdiv (inject_Z a) (inject_Z b));
            float_mul_int := fun x n => Qred (Qmult x (inject_Z n));
            float_of_int := fun z => Some (inject_Z z);
            float_format_2f := Q_format_2f |};
    intros; discriminate.
Defined.

Fixpoint parts_eqb (xs ys : list string) : bool :=
  match xs, ys with
  | [], [] => true
  | x :: xs', y :: ys' => String.eqb x y && parts_eqb xs' ys'
  | _, _ => false
  end.

Definition Path_eqb (p q : Path) : bool :=
  String.eqb (root p) (root q) && parts_eqb (parts p) (parts q).

(** A file system that does not change: a table of readable files, a
    table of unreadable ones, every other path is missing. *)
Fixpoint lookup {A} (p : Path) (table : list (Path * A)) : option A :=
  match table with
  | [] => None
  | (q, a) :: table' => if Path_eqb p q then Some a else lookup p table'
  end.

(** A stand-in for [node]: a program that mentions [throw] writes an
    error to stderr, a program that mentions [assert(false)] writes an
    assertion failure, any other program is silent.  It prints a line on
    stdout and exits with the given code in every case. *)
Definition fake_node (code : Z) (args : list string) : CompletedProcess :=
  match args with
  | [_; _; program] =>
      if PyStr.contains "throw" program
      then mkProcess code "out" "Error: x"
      else if PyStr.contains "assert(false)" program
      then mkProcess code "out" "AssertionError: Assertion failed"
      else mkProcess code "out" ""
  | _ => mkProcess code "out" "usage"
  end.

Definition world (dataset : result DataFrame)
    (files : list (Path * string)) (denied : list (Path * exn))
    (node : list string -> result CompletedProcess) : World :=
  {| pd_read_json := fun _ _ => dataset;
     open_read := fun _ p =>
       match lookup p files with
       | Some text => Ok text
       | None =>
           match lookup p denied with
           | Some e => Raise e
           | None => Raise FileNotFoundError
           end
       end;
     subprocess_run := fun _ args => node args |}.

Definition task0 : Row := mkRow "HumanEval/0" "assert(1===1);".

Definition path0 : Path := parse "results-cleaned/m/HumanEval-0.js".

(** The dataset file is missing. *)
Definition no_dataset : World :=
  world (Raise FileNotFoundError) [] [] (fun a => Ok (fake_node 0 a)).

(** One task, its candidate file is empty. *)
Definition empty_candidate : World :=
  world (Ok [task0]) [(path0, "")] [] (fun a => Ok (fake_node 0 a)).

(** One task, its candidate throws. *)
Definition throwing_candidate : World :=
  world (Ok [task0]) [(path0, "throw new Error('x')")] []
        (fun a => Ok (fake_node 1 a)).

(** One task, no candidate file. *)
Definition missing_candidate : World :=
  world (Ok [task0]) [] [] (fun a => Ok (fake_node 0 a)).

(** One task, the candidate file cannot be read. *)
Definition unreadable_candidate : World :=
  world (Ok [task0]) [] [(path0, PermissionError)]
        (fun a => Ok (fake_node 0 a)).

(** One task; model [b] has a candidate that cannot be read, the other
    models have none. *)
Definition unreadable_for_b : World :=
  world (Ok [task0]) []
        [(parse "results-cleaned/b/HumanEval-0.js", PermissionError)]
        (fun a => Ok (fake_node 0 a)).

(** One task, the interpreter is not installed: [subprocess.run] raises
    [FileNotFoundError] itself. *)
Definition no_interpreter : World :=
  world (Ok [task0]) [(path0, "")] [] (fun _ => Raise FileNotFoundError).

End Sample.

(** ** Vocabulary of the statements *)

(** What every sequence of updates keeps true. *)
Definition counters_consistent (r : EvaluationResult) : Prop :=
  correct r + failed r = total r
  /\ 0 <= correct r
  /\ 0 <= assertion_failed r <= failed r.

(** The text [s] occurs somewhere in [t]. *)
Definition occurs_in (s t : string) : Prop := exists a b, t = a ++ s ++ b.

(** A model name that is a relative path in normal form: not absolute,
    not empty, and made of components none of which is empty or ["."]. *)
Definition normal_name (m : string) : bool :=
  negb (PyStr.startswith "/" m)
  && negb (match parts (parse m) with [] => true | _ => false end)
  && String.eqb (PyStr.join "/" (parts (parse m))) m.



(** The kinds of events, to count them in a history. *)
Definition is_load (e : event) : bool :=
  match e with ReadJson _ => true | _ => false end.

Definition is_open (e : event) : bool :=
  match e with OpenRead _ => true | _ => false end.

Definition is_run (e : event) : bool :=
  match e with Run _ => true | _ => false end.

Definition is_print (e : event) : bool :=
  match e with Print _ => true | _ => false end.

Definition count (kind : event -> bool) (h : list event) : nat :=
  List.length (filter kind h).

(** How many of the outcomes satisfy a test. *)
Definition tally (f : string -> bool) (outcomes : list string) : Z :=
  Z.of_nat (List.length (filter f outcomes)).

Definition is_failure (outcome : string) : bool :=
  negb (PyStr.is_empty outcome).

Definition is_assertion (outcome : string) : bool :=
  negb (PyStr.is_empty outcome)
  && PyStr.contains "Assertion failed" outcome.

Definition is_exception (outcome : string) : bool :=
  negb (PyStr.is_empty outcome)
  && negb (PyStr.contains "Assertion failed" outcome).

(** The warning of a skipped task. *)
Definition warning (file_path : Path) : string :=
  "Warning: File not found, skipping: " ++ to_str file_path.

(** The events of a task whose candidate file is missing. *)
Definition skipped (model_path : Path) (row : Row) : list event :=
  let file_path := candidate_path model_path row in
  [OpenRead file_path; Print (warning file_path)].

(** The line that opens the summary of a model, and the lines of that kind
    in a history. *)
Definition header (model_name : string) : string :=
  "Results for model: " ++ model_name.

Definition headers (h : list event) : list string :=
  filter (PyStr.startswith "Results for model: ") (printed h).

(** The block that [print_summary] prints, given the two formatted
    rates. *)
Definition summary_lines (model_name : string) (r : EvaluationResult)
    (pass_rate_2f exception_rate_2f : string) : list string :=
  [PyStr.repeat "-" 60;
   "Results for model: " ++ model_name;
   PyStr.repeat "-" 60;
   "Strict accuracy:           " ++ pass_rate_2f ++ " %";
   " Total entries validated:  " ++ PyStr.of_int (total r);
   " Successful:               " ++ PyStr.of_int (correct r);
   " Failed (Total):           " ++ PyStr.of_int (failed r);
   "  - Assertion Errors:      " ++ PyStr.of_int (assertion_failed r);
   "  - Exception Errors:      " ++ PyStr.of_int (exception_failed r)
     ++ " (" ++ exception_rate_2f ++ " % of all failures)";
   PyStr.repeat "-" 60].

(** Two worlds that hold the same files and whose interpreters write the
    same standard error (or raise the same exception); exit codes and
    standard outputs may differ. *)
Definition same_stderr (w1 w2 : World) : Prop :=
  (forall h p, open_read w1 h p = open_read w2 h p)
  /\ (forall h args,
        match subprocess_run w1 h args, subprocess_run w2 h args with
        | Ok p1, Ok p2 => stderr p1 = stderr p2
        | Raise e1, Raise e2 => e1 = e2
        | _, _ => False
        end).







(** * Properties *)

(** ** Strings *)

Module PyStrFacts.
Import PyStr.

Lemma is_empty_true (s : string) : is_empty s = true <-> s = "".
Proof. destruct s; simpl; split; intro H; try reflexivity; discriminate. Qed.

Lemma is_empty_false (s : string) : is_empty s = false <-> s <> "".
Proof.
  destruct s; simpl; split; intro H; try reflexivity; try discriminate.
  now contradiction H.
Qed.

Lemma startswith_iff (p s : string) :
  startswith p s = true <-> exists t, s = p ++ t.
Proof.
  revert s; induction p as [|a p IH]; intros s; simpl.
  - split; [intros _; now exists s | reflexivity].
  - destruct s as [|b s].
    + split; [discriminate | intros [t Ht]; discriminate].
    + rewrite andb_true_iff, Ascii.eqb_eq, IH. split.
      * intros [-> [t ->]]. now exists t.
      * intros [t Ht]. injection Ht as -> ->. split; [reflexivity | now exists t].
Qed.

(** [contains] decides the substring relation. *)
Lemma contains_iff (needle hay : string) :
  contains needle hay = true <-> exists a b, hay = a ++ needle ++ b.
Proof.
  induction hay as [|c hay IH]; simpl.
  - rewrite orb_false_r, startswith_iff. split.
    + intros [t Ht]. now exists "", t.
    + intros [a [b H]]. destruct a; [now exists b | discriminate].
  - rewrite orb_true_iff, startswith_iff, IH. split.
    + intros [[t Ht] | [a [b H]]].
      * now exists "", t.
      * exists (String c a), b. simpl. now rewrite H.
    + intros [a [b H]]. destruct a as [|d a]; simpl in H.
      * left. now exists b.
      * right. injection H as _ H. now exists a, b.
Qed.

Lemma replace_length (old new : ascii) (s : string) :
  String.length (replace old new s) = String.length s.
Proof. induction s; simpl; congruence. Qed.

(** Character by character: [old] becomes [new], the rest stays. *)
Lemma replace_get (old new : ascii) (s : string) (i : nat) :
  String.get i (replace old new s)
  = option_map (fun c => if Ascii.eqb c old then new else c) (String.get i s).
Proof.
  revert i; induction s as [|c s IH]; intros i; simpl.
  - reflexivity.
  - destruct i; [reflexivity | apply IH].
Qed.

Lemma replace_removes (old new : ascii) (s : string) :
  old <> new -> has_char old (replace old new s) = false.
Proof.
  intros Hne; induction s as [|c s IH]; simpl; [reflexivity|].
  rewrite IH, orb_false_r.
  destruct (Ascii.eqb c old) eqn:E; [|exact E].
  apply Ascii.eqb_neq. congruence.
Qed.

Lemma replace_absent (old new : ascii) (s : string) :
  has_char old s = false -> replace old new s = s.
Proof.
  induction s as [|c s IH]; simpl; [reflexivity|].
  intros H. apply orb_false_iff in H as [Hc Hs].
  now rewrite Hc, IH.
Qed.

Lemma length_app (s t : string) :
  String.length (s ++ t) = (String.length s + String.length t)%nat.
Proof. induction s; simpl; congruence. Qed.

Lemma app_assoc (s t u : string) : (s ++ t) ++ u = s ++ t ++ u.
Proof. induction s; simpl; congruence. Qed.

Lemma has_char_app (c : ascii) (s t : string) :
  has_char c (s ++ t) = has_char c s || has_char c t.
Proof. induction s; simpl; [reflexivity | now rewrite IHs, orb_assoc]. Qed.

Lemma split_absent (sep : ascii) (s : string) :
  has_char sep s = false -> split sep s = [s].
Proof.
  induction s as [|c s IH]; simpl; [reflexivity|].
  intros H. apply orb_false_iff in H as [Hc Hs].
  now rewrite Hc, IH.
Qed.

Lemma startswith_absent (c : ascii) (s : string) :
  has_char c s = false -> startswith (String c "") s = false.
Proof.
  destruct s as [|d s]; simpl; [reflexivity|].
  intros H. apply orb_false_iff in H as [Hd _].
  rewrite Ascii.eqb_sym, Hd. reflexivity.
Qed.

End PyStrFacts.

(** ** The counters *)

Lemma update_counts_total (r : EvaluationResult) (s : string) :
  total (update_counts r s) = total r + 1.
Proof.
  unfold update_counts.
  destruct (PyStr.is_empty s); [reflexivity|].
  destruct (PyStr.contains _ s); reflexivity.
Qed.

Lemma update_counts_consistent (r : EvaluationResult) (s : string) :
  counters_consistent r -> counters_consistent (update_counts r s).
Proof.
  unfold counters_consistent, update_counts.
  destruct (PyStr.is_empty s); [simpl; lia|].
  destruct (PyStr.contains _ s); simpl; lia.
Qed.

Lemma init_consistent : counters_consistent EvaluationResult_init.
Proof. unfold counters_consistent; simpl; lia. Qed.

Lemma update_many_consistent (outcomes : list string) (r : EvaluationResult) :
  counters_consistent r -> counters_consistent (update_many r outcomes).
Proof.
  revert r; induction outcomes as [|s outcomes IH]; intros r Hr; simpl.
  - exact Hr.
  - apply IH, update_counts_consistent, Hr.
Qed.

(** C1.  After any finite sequence of [update_counts] calls on a fresh
    [EvaluationResult], with any strings as arguments, the counters satisfy
    [correct + failed = total] and [assertion_failed <= failed], and
    [exception_failed] is [failed - assertion_failed]. *)
Theorem counters_invariant (outcomes : list string) :
  let r := update_many EvaluationResult_init outcomes in
  correct r + failed r = total r
  /\ assertion_failed r <= failed r
  /\ exception_failed r = failed r - assertion_failed r.
Proof.
  intros r.
  destruct (update_many_consistent outcomes _ init_consistent)
    as (Hsum & _ & _ & Hle).
  fold r in Hsum, Hle. repeat split; assumption.
Qed.

(** The number of updates is the total. *)
Lemma update_many_total (outcomes : list string) (r : EvaluationResult) :
  total (update_many r outcomes) = total r + Z.of_nat (List.length outcomes).
Proof.
  revert r; induction outcomes as [|s outcomes IH]; intros r.
  - simpl. lia.
  - change (update_many r (s :: outcomes))
      with (update_many (update_counts r s) outcomes).
    rewrite IH, update_counts_total. simpl List.length. lia.
Qed.

Lemma update_counts_empty (r : EvaluationResult) :
  update_counts r ""
  = mkResult (total r + 1) (correct r + 1) (failed r) (assertion_failed r).
Proof. reflexivity. Qed.

Lemma update_counts_nonempty (r : EvaluationResult) (s : string) :
  s <> "" ->
  update_counts r s
  = mkResult (total r + 1) (correct r) (failed r + 1)
      (if PyStr.contains "Assertion failed" s
       then assertion_failed r + 1 else assertion_failed r).
Proof.
  intros Hne. apply PyStrFacts.is_empty_false in Hne.
  unfold update_counts. rewrite Hne.
  now destruct (PyStr.contains "Assertion failed" s).
Qed.

(** C2.  [update_counts] adds one to [total]; on the empty outcome it adds
    one to [correct] and leaves [failed] and [assertion_failed] alone; on a
    non-empty outcome it adds one to [failed], leaves [correct] alone, and
    adds one to [assertion_failed] exactly when the outcome contains the
    text [Assertion failed] (it is left alone otherwise).  The record has
    no other field. *)
Theorem update_counts_spec (r : EvaluationResult) (outcome : string) :
  let r' := update_counts r outcome in
  total r' = total r + 1
  /\ (outcome = "" ->
      correct r' = correct r + 1
      /\ failed r' = failed r
      /\ assertion_failed r' = assertion_failed r)
  /\ (outcome <> "" ->
      correct r' = correct r
      /\ failed r' = failed r + 1
      /\ (occurs_in "Assertion failed" outcome ->
          assertion_failed r' = assertion_failed r + 1)
      /\ (~ occurs_in "Assertion failed" outcome ->
          assertion_failed r' = assertion_failed r)).
Proof.
  intros r'; subst r'. split; [apply update_counts_total|]. split.
  - intros ->. rewrite update_counts_empty. auto.
  - intros Hne. rewrite (update_counts_nonempty r outcome Hne).
    cbn [total correct failed assertion_failed].
    destruct (PyStr.contains "Assertion failed" outcome) eqn:E.
    + repeat split; auto. intros Hno. exfalso. apply Hno.
      apply PyStrFacts.contains_iff, E.
    + repeat split; auto. intros Hyes.
      apply PyStrFacts.contains_iff in Hyes. congruence.
Qed.

(** The match is case-sensitive: a lower-case marker is an exception. *)
Example update_counts_lower_case :
  update_counts EvaluationResult_init "assertion failed" = mkResult 1 0 1 0.
Proof. reflexivity. Qed.

Example update_counts_marker_inside :
  update_counts EvaluationResult_init "AssertionError: Assertion failed: x"
  = mkResult 1 0 1 1.
Proof. reflexivity. Qed.

Lemma update_counts_spec_witness :
  let r' := update_counts (mkResult 3 2 1 0) "AssertionError: Assertion failed" in
  total r' = 4 /\ correct r' = 2 /\ failed r' = 2 /\ assertion_failed r' = 1.
Proof.
  destruct (update_counts_spec (mkResult 3 2 1 0)
              "AssertionError: Assertion failed") as (Ht & _ & Hne).
  destruct Hne as (Hc & Hf & Ha & _); [discriminate|].
  cbv zeta. split; [exact Ht|]. split; [exact Hc|]. split; [exact Hf|].
  apply Ha. exists "AssertionError: ", "". reflexivity.
Defined.

(** ** Paths *)

Module PathlibFacts.
Import PyStr PyStrFacts.

Lemma splitroot_relative (s : string) :
  startswith "/" s = false -> splitroot s = ("", s).
Proof.
  intros Hc. unfold splitroot.
  assert (Hne : slice 0 1 s <> "/").
  { destruct s as [|c s]; [discriminate|].
    unfold slice. cbn [Nat.sub String.substring].
    replace (String.substring 0 0 s) with "" by (destruct s; reflexivity).
    intros H. injection H as ->. simpl in Hc. discriminate. }
  apply String.eqb_neq in Hne. now rewrite Hne.
Qed.

(** A text without ["/"] that is neither empty nor ["."] is one
    component. *)
Lemma parse_component (s : string) :
  has_char "/" s = false -> s <> "" -> s <> "." ->
  parse s = mkPath "" [s].
Proof.
  intros Hs Hne Hdot. unfold parse.
  rewrite splitroot_relative by now apply startswith_absent.
  rewrite split_absent by assumption. simpl.
  unfold keep_component.
  apply is_empty_false in Hne. apply String.eqb_neq in Hdot.
  now rewrite Hne, Hdot.
Qed.

Lemma joinpath_component (p : Path) (s : string) :
  has_char "/" s = false -> s <> "" -> s <> "." ->
  p </> s = mkPath (root p) (parts p ++ [s]).
Proof.
  intros Hs Hne Hdot. unfold joinpath.
  rewrite startswith_absent by assumption.
  now rewrite parse_component.
Qed.

Lemma joinpath_relative (p : Path) (s : string) :
  startswith "/" s = false ->
  p </> s = mkPath (root p) (parts p ++ parts (parse s)).
Proof. intros Hs. unfold joinpath. now rewrite Hs. Qed.

Lemma file_name_not_dot (n ext : string) :
  (2 <= String.length ext)%nat -> n ++ ext <> ".".
Proof.
  intros Hlen H.
  assert (L : String.length (n ++ ext) = 1%nat) by now rewrite H.
  rewrite length_app in L. lia.
Qed.

Lemma file_name_not_empty (n ext : string) :
  (2 <= String.length ext)%nat -> n ++ ext <> "".
Proof.
  intros Hlen H.
  assert (L : String.length (n ++ ext) = 0%nat) by now rewrite H.
  rewrite length_app in L. lia.
Qed.

Lemma join_snoc (sep : string) (xs : list string) (y : string) :
  xs <> [] -> join sep (xs ++ [y]) = join sep xs ++ sep ++ y.
Proof.
  induction xs as [|x xs IH]; intros Hne; [now contradiction Hne|].
  destruct xs as [|x' xs]; [reflexivity|].
  change (join sep ((x :: x' :: xs) ++ [y]))
    with (x ++ sep ++ join sep ((x' :: xs) ++ [y])).
  rewrite IH by discriminate.
  change (join sep (x :: x' :: xs)) with (x ++ sep ++ join sep (x' :: xs)).
  now rewrite !app_assoc.
Qed.

Lemma join_cons (sep x : string) (xs : list string) :
  xs <> [] -> join sep (x :: xs) = x ++ sep ++ join sep xs.
Proof. destruct xs; [intros H; now contradiction H | reflexivity]. Qed.

End PathlibFacts.

(** C5.  The candidate file of a task is the file [N.js] directly under
    the directory of the model, where [N] is the task identifier with every
    ["/"] replaced by ["-"]: [N] has the length of the identifier, differs
    from it exactly where the identifier has a ["/"], and contains no
    ["/"]; an identifier without ["/"] is used unchanged.  For a model name
    in normal form the path reads [results-cleaned/<model>/<N>.js]. *)
Theorem candidate_path_spec (model_name : string) (row : Row) :
  let model_path := BASE_RESULTS_PATH </> model_name in
  let N := PyStr.replace "/" "-" (task_id row) in
  candidate_path model_path row
    = mkPath (root model_path) (parts model_path ++ [N ++ ".js"])
  /\ String.length N = String.length (task_id row)
  /\ (forall i, String.get i N
                = option_map (fun c => if Ascii.eqb c "/" then "-"%char else c)
                             (String.get i (task_id row)))
  /\ PyStr.has_char "/" N = false
  /\ (PyStr.has_char "/" (task_id row) = false -> N = task_id row)
  /\ (normal_name model_name = true ->
      to_str (candidate_path model_path row)
      = "results-cleaned/" ++ model_name ++ "/" ++ N ++ ".js").
Proof.
  intros model_path N.
  assert (Hslash : PyStr.has_char "/" N = false)
    by (apply PyStrFacts.replace_removes; discriminate).
  assert (Hpath : candidate_path model_path row
                  = mkPath (root model_path) (parts model_path ++ [N ++ ".js"])).
  { unfold candidate_path. fold N.
    apply PathlibFacts.joinpath_component.
    - rewrite PyStrFacts.has_char_app, Hslash. reflexivity.
    - apply PathlibFacts.file_name_not_empty. simpl; lia.
    - apply PathlibFacts.file_name_not_dot. simpl; lia. }
  split; [exact Hpath|].
  split; [apply PyStrFacts.replace_length|].
  split; [intros i; apply PyStrFacts.replace_get|].
  split; [exact Hslash|].
  split; [apply PyStrFacts.replace_absent|].
  intros Hm. rewrite Hpath. unfold normal_name in Hm.
  apply andb_true_iff in Hm as [Hm Hjoin].
  apply andb_true_iff in Hm as [Hrel Hparts].
  apply negb_true_iff in Hrel. apply String.eqb_eq in Hjoin.
  subst model_path.
  rewrite (PathlibFacts.joinpath_relative _ _ Hrel).
  change (root BASE_RESULTS_PATH) with "".
  change (parts BASE_RESULTS_PATH) with ["results-cleaned"].
  cbn [root parts app]. unfold to_str. cbn [root parts].
  assert (Hne : parts (parse model_name) <> [])
    by (destruct (parts (parse model_name)); discriminate).
  rewrite PathlibFacts.join_cons
    by (destruct (parts (parse model_name)); discriminate).
  rewrite PathlibFacts.join_snoc by exact Hne.
  rewrite Hjoin. reflexivity.
Qed.

Lemma candidate_path_spec_witness :
  to_str (candidate_path (BASE_RESULTS_PATH </> "org/model")
                         (mkRow "Human/Eval/0" "assert(1===1);"))
  = "results-cleaned/org/model/Human-Eval-0.js"
  /\ PyStr.replace "/" "-" "HumanEval-0" = "HumanEval-0".
Proof.
  split.
  - apply (candidate_path_spec "org/model"
             (mkRow "Human/Eval/0" "assert(1===1);")).
    reflexivity.
  - apply (candidate_path_spec "org/model"
             (mkRow "HumanEval-0" "assert(1===1);")).
    reflexivity.
Defined.

(** ** One task *)

Section OneTask.

Variables (w : World) (h : list event).
Variables (model_path : Path) (row : Row) (results : EvaluationResult).

Let file_path := candidate_path model_path row.

(** The candidate file is missing: a warning, the counters as they
    were. *)
Lemma evaluate_row_missing :
  open_read w h file_path = Raise FileNotFoundError ->
  evaluate_row model_path row results w h
  = ((h ++ [OpenRead file_path;
            Print ("Warning: File not found, skipping: "
                   ++ to_str file_path)])%list,
     Ok results).
Proof.
  intros Hread.
  unfold evaluate_row, bind, try_except_FileNotFoundError, open_and_read.
  fold file_path. rewrite Hread.
  unfold print, ret. now rewrite <- app_assoc.
Qed.

(** The candidate file is read: the program is run and its outcome
    counted; an exception of [subprocess.run] propagates. *)
Lemma evaluate_row_present (llm_response : string) :
  open_read w h file_path = Ok llm_response ->
  let args := ["node"; "-e"; test_program llm_response row] in
  evaluate_row model_path row results w h
  = ((h ++ [OpenRead file_path; Run args])%list,
     match subprocess_run w (h ++ [OpenRead file_path])%list args with
     | Ok process => Ok (update_counts results (stderr process))
     | Raise e => Raise e
     end).
Proof.
  intros Hread args.
  unfold evaluate_row, bind, try_except_FileNotFoundError, open_and_read.
  fold file_path. rewrite Hread.
  unfold execute_js_test, bind, run, ret. fold args.
  rewrite <- app_assoc.
  now destruct (subprocess_run w (h ++ [OpenRead file_path])%list args).
Qed.

(** Any other exception of the read propagates. *)
Lemma evaluate_row_unreadable (e : exn) :
  open_read w h file_path = Raise e -> e <> FileNotFoundError ->
  evaluate_row model_path row results w h
  = ((h ++ [OpenRead file_path])%list, Raise e).
Proof.
  intros Hread He.
  unfold evaluate_row, bind, try_except_FileNotFoundError, open_and_read.
  fold file_path. rewrite Hread.
  destruct e; try reflexivity. now contradiction He.
Qed.

End OneTask.

Lemma for_in_cons {A S} (x : A) (xs : list A) (body : A -> S -> M S)
    (s s' : S) (w : World) (h h' : list event) :
  body x s w h = (h', Ok s') ->
  for_in (x :: xs) body s w h = for_in xs body s' w h'.
Proof. intros H. simpl. unfold bind. now rewrite H. Qed.

Lemma for_in_raise {A S} (x : A) (xs : list A) (body : A -> S -> M S)
    (s : S) (e : exn) (w : World) (h h' : list event) :
  body x s w h = (h', Raise e) ->
  for_in (x :: xs) body s w h = (h', Raise e).
Proof. intros H. simpl. unfold bind. now rewrite H. Qed.

(** C3.  When the candidate file of a task does not exist at the resolved
    path, the task prints one warning that ends with that path and leaves
    [total], [correct], [failed] and [assertion_failed] as they were; the
    loop of [evaluate_model] goes on with the next task. *)
Theorem missing_candidate_skipped (w : World) (h : list event)
    (model_path : Path) (row : Row) (rest : list Row)
    (results : EvaluationResult) :
  let file_path := candidate_path model_path row in
  let h' := (h ++ [OpenRead file_path;
                   Print ("Warning: File not found, skipping: "
                          ++ to_str file_path)])%list in
  open_read w h file_path = Raise FileNotFoundError ->
  evaluate_row model_path row results w h = (h', Ok results)
  /\ for_in (row :: rest) (evaluate_row model_path) results w h
     = for_in rest (evaluate_row model_path) results w h'.
Proof.
  intros file_path h' Hread.
  pose proof (evaluate_row_missing w h model_path row results Hread) as Hrow.
  split; [exact Hrow|].
  exact (for_in_cons _ _ _ _ _ _ _ _ Hrow).
Qed.

Lemma missing_candidate_skipped_witness :
  evaluate_model "m" [Sample.task0] Sample.missing_candidate []
  = ([OpenRead Sample.path0;
      Print "Warning: File not found, skipping: results-cleaned/m/HumanEval-0.js"],
     Ok (mkResult 0 0 0 0)).
Proof.
  unfold evaluate_model.
  rewrite (proj2 (missing_candidate_skipped Sample.missing_candidate []
                    (BASE_RESULTS_PATH </> "m") Sample.task0 []
                    EvaluationResult_init eq_refl)).
  reflexivity.
Defined.

(** C4.  The outcome of an executed task is the standard error of the
    subprocess and nothing else of it: [execute_js_test] returns [stderr],
    the task counts [update_counts] of it, and that adds to [correct] when
    the text is empty and to [failed] when it is not. *)
Theorem outcome_is_stderr (w : World) (h : list event) (model_path : Path)
    (row : Row) (results : EvaluationResult)
    (llm_response : string) (process : CompletedProcess) :
  let file_path := candidate_path model_path row in
  let test_code := test_program llm_response row in
  let h1 := (h ++ [OpenRead file_path])%list in
  let results' := update_counts results (stderr process) in
  open_read w h file_path = Ok llm_response ->
  subprocess_run w h1 ["node"; "-e"; test_code] = Ok process ->
  execute_js_test test_code w h1
  = ((h1 ++ [Run ["node"; "-e"; test_code]])%list, Ok (stderr process))
  /\ snd (evaluate_row model_path row results w h) = Ok results'
  /\ (stderr process = "" ->
      correct results' = correct results + 1
      /\ failed results' = failed results)
  /\ (stderr process <> "" ->
      correct results' = correct results
      /\ failed results' = failed results + 1).
Proof.
  intros file_path test_code h1 results' Hread Hrun.
  split; [|split].
  - unfold execute_js_test, bind, run, ret. now rewrite Hrun.
  - rewrite (evaluate_row_present w h model_path row results _ Hread).
    cbn [snd]. fold file_path h1 test_code. now rewrite Hrun.
  - subst results'. split.
    + intros ->. rewrite update_counts_empty. now split.
    + intros H. rewrite (update_counts_nonempty results _ H). now split.
Qed.

(** Two processes with the same standard error count the same, whatever
    their exit codes and standard outputs. *)
Corollary outcome_ignores_exit_code (w1 w2 : World) (h : list event)
    (test_code : string) (p1 p2 : CompletedProcess) :
  subprocess_run w1 h ["node"; "-e"; test_code] = Ok p1 ->
  subprocess_run w2 h ["node"; "-e"; test_code] = Ok p2 ->
  stderr p1 = stderr p2 ->
  execute_js_test test_code w1 h = execute_js_test test_code w2 h.
Proof.
  intros H1 H2 Heq. unfold execute_js_test, bind, run, ret.
  now rewrite H1, H2, Heq.
Qed.

Lemma outcome_is_stderr_witness :
  snd (evaluate_row (BASE_RESULTS_PATH </> "m") Sample.task0
         EvaluationResult_init Sample.throwing_candidate [])
  = Ok (update_counts EvaluationResult_init "Error: x")
  /\ correct (update_counts EvaluationResult_init "Error: x") = 0
  /\ failed (update_counts EvaluationResult_init "Error: x") = 1.
Proof.
  destruct (outcome_is_stderr Sample.throwing_candidate []
              (BASE_RESULTS_PATH </> "m") Sample.task0 EvaluationResult_init
              "throw new Error('x')" (mkProcess 1 "out" "Error: x")
              eq_refl eq_refl) as (_ & Hrow & _ & Hne).
  split; [exact Hrow|]. apply Hne. discriminate.
Defined.

(** C6.  The program that is run for a task is the text of the candidate,
    then two line feeds, then the test of the task; with an empty
    candidate and the test [assert(1===1);] it is two line feeds followed
    by [assert(1===1);]. *)
Theorem program_is_candidate_then_test (w : World) (h : list event)
    (model_path : Path) (row : Row) (results : EvaluationResult)
    (llm_response : string) :
  let file_path := candidate_path model_path row in
  open_read w h file_path = Ok llm_response ->
  fst (evaluate_row model_path row results w h)
  = (h ++ [OpenRead file_path;
           Run ["node"; "-e";
                (llm_response ++ LF ++ LF ++ test row)%string]])%list
  /\ test_program "" (mkRow "HumanEval/0" "assert(1===1);")
     = String "010" (String "010" "assert(1===1);").
Proof.
  intros file_path Hread. split; [|reflexivity].
  now rewrite (evaluate_row_present w h model_path row results _ Hread).
Qed.

Lemma program_is_candidate_then_test_witness :
  programs_run
    (fst (evaluate_row (BASE_RESULTS_PATH </> "m") Sample.task0
            EvaluationResult_init Sample.empty_candidate []))
  = [String "010" (String "010" "assert(1===1);")].
Proof.
  rewrite (proj1 (program_is_candidate_then_test Sample.empty_candidate []
                    (BASE_RESULTS_PATH </> "m") Sample.task0
                    EvaluationResult_init "" eq_refl)).
  reflexivity.
Defined.

(** ** The summary *)

Section SummaryFacts.

Context {F : PyFloat}.

(** Without its guard the division raises on a zero divisor. *)
Lemma percentage_zero_divisor (a : Z) :
  percentage a 0 = Raise ZeroDivisionError.
Proof. reflexivity. Qed.

Lemma percentage_nonzero (a b : Z) :
  b <> 0 ->
  percentage a b
  = match int_truediv a b with
    | Some q => Ok (Float (float_mul_int q 100))
    | None => Raise OverflowError
    end.
Proof.
  intros Hb. unfold percentage, truediv.
  apply Z.eqb_neq in Hb. rewrite Hb.
  now destruct (int_truediv a b).
Qed.

Lemma percentage_fits (a b : Z) :
  b <> 0 -> Z.abs a <= Z.abs b ->
  exists q, percentage a b = Ok (Float q).
Proof.
  intros Hb Hab. rewrite percentage_nonzero by exact Hb.
  destruct (int_truediv a b) as [q|] eqn:E.
  - now exists (float_mul_int q 100).
  - now destruct (int_truediv_fits a b Hb Hab).
Qed.

(** C8.  The rates of [print_summary] never divide by zero: the pass
    rate is [correct / total * 100] when [total > 0] and the integer 0
    when [total = 0]; the exception rate is
    [exception_failed / failed * 100] when [failed > 0] and the integer 0
    when [failed = 0]; neither raises [ZeroDivisionError], for any
    counters. *)
Theorem rates_guarded (r : EvaluationResult) :
  (total r > 0 ->
   pass_rate r
   = match int_truediv (correct r) (total r) with
     | Some q => Ok (Float (float_mul_int q 100))
     | None => Raise OverflowError
     end)
  /\ (total r = 0 -> pass_rate r = Ok (Int 0))
  /\ (failed r > 0 ->
      exception_rate r
      = match int_truediv (exception_failed r) (failed r) with
        | Some q => Ok (Float (float_mul_int q 100))
        | None => Raise OverflowError
        end)
  /\ (failed r = 0 -> exception_rate r = Ok (Int 0))
  /\ pass_rate r <> Raise ZeroDivisionError
  /\ exception_rate r <> Raise ZeroDivisionError.
Proof.
  assert (G : forall a b,
             (if b >? 0 then percentage a b else Ok (Int 0))
             <> Raise ZeroDivisionError).
  { intros a b. destruct (b >? 0) eqn:E; [|discriminate].
    rewrite percentage_nonzero by lia.
    destruct (int_truediv a b); discriminate. }
  unfold pass_rate, exception_rate. repeat split.
  - intros H. replace (total r >? 0) with true by lia.
    apply percentage_nonzero. lia.
  - intros ->. reflexivity.
  - intros H. replace (failed r >? 0) with true by lia.
    apply percentage_nonzero. lia.
  - intros ->. reflexivity.
  - apply G.
  - apply G.
Qed.

(** On consistent counters both rates are computed and formatted. *)
Lemma rates_of_consistent (r : EvaluationResult) :
  correct r + failed r = total r ->
  0 <= correct r ->
  0 <= assertion_failed r <= failed r ->
  exists n m s t,
    pass_rate r = Ok n /\ exception_rate r = Ok m
    /\ format_2f n = Ok s /\ format_2f m = Ok t.
Proof.
  intros Hsum Hc Ha.
  assert (Zero : exists s, format_2f (Int 0) = Ok s).
  { unfold format_2f. destruct (float_of_int 0) as [x|] eqn:E.
    - now exists (float_format_2f x).
    - now destruct float_of_int_zero. }
  assert (P : forall a b, 0 <= a <= b ->
              exists n s,
                (if b >? 0 then percentage a b else Ok (Int 0)) = Ok n
                /\ format_2f n = Ok s).
  { intros a b Hab. destruct (b >? 0) eqn:E.
    - destruct (percentage_fits a b) as [q Hq]; [lia | lia |].
      exists (Float q), (float_format_2f q). now split.
    - destruct Zero as [s Hs]. now exists (Int 0), s. }
  destruct (P (correct r) (total r)) as (n & s & Hn & Hs); [lia|].
  destruct (P (exception_failed r) (failed r)) as (m & t & Hm & Ht);
    [unfold exception_failed; lia|].
  now exists n, m, s, t.
Qed.

Lemma print_summary_returns (model_name : string) (r : EvaluationResult)
    (w : World) (h : list event) :
  correct r + failed r = total r ->
  0 <= correct r ->
  0 <= assertion_failed r <= failed r ->
  exists h', print_summary model_name r w h = (h', Ok tt).
Proof.
  intros Hsum Hc Ha.
  destruct (rates_of_consistent r Hsum Hc Ha)
    as (n & m & s & t & Hn & Hm & Hs & Ht).
  unfold print_summary, bind, lift, print.
  rewrite Hn, Hm, Hs, Ht. eexists. reflexivity.
Qed.

End SummaryFacts.

Lemma rates_guarded_witness :
  @pass_rate Sample.QFloat (mkResult 4 3 1 0) = Ok (@Float Sample.QFloat (75 # 1))
  /\ @pass_rate Sample.QFloat (mkResult 0 0 0 0) = Ok (Int 0)
  /\ @exception_rate Sample.QFloat (mkResult 4 1 3 1) = Ok (@Float Sample.QFloat (200 # 3))
  /\ @exception_rate Sample.QFloat (mkResult 4 4 0 0) = Ok (Int 0).
Proof.
  split; [|split; [|split]].
  - rewrite (proj1 (@rates_guarded Sample.QFloat (mkResult 4 3 1 0)))
      by reflexivity.
    reflexivity.
  - apply (@rates_guarded Sample.QFloat (mkResult 0 0 0 0)). reflexivity.
  - destruct (@rates_guarded Sample.QFloat (mkResult 4 1 3 1))
      as (_ & _ & H & _).
    rewrite H by reflexivity. reflexivity.
  - apply (@rates_guarded Sample.QFloat (mkResult 4 4 0 0)). reflexivity.
Defined.

(** ** [main] *)

Section MainFacts.

Context {F : PyFloat}.

Lemma main_with_loaded (models : list string) (w : World)
    (h : list event) (df : DataFrame) :
  pd_read_json w h DATA_FILE = Ok df ->
  main_with models w h
  = for_in models
      (fun llm _ =>
         model_results <- evaluate_model llm df ;;
         print_summary llm model_results)
      tt w (h ++ [ReadJson DATA_FILE])%list.
Proof.
  intros Hload.
  unfold main_with, bind, try_except_FileNotFoundError, read_json.
  now rewrite Hload.
Qed.

(** An exception of the loader other than [FileNotFoundError] leaves
    [main]. *)
Lemma main_with_load_error (models : list string) (w : World)
    (h : list event) (e : exn) :
  pd_read_json w h DATA_FILE = Raise e -> e <> FileNotFoundError ->
  main_with models w h = ((h ++ [ReadJson DATA_FILE])%list, Raise e).
Proof.
  intros Hload He.
  unfold main_with, bind, try_except_FileNotFoundError, read_json.
  rewrite Hload. destruct e; try reflexivity. now contradiction He.
Qed.

(** The loader found no file: the handler prints and returns. *)
Lemma main_with_not_found (models : list string) (w : World)
    (h : list event) :
  pd_read_json w h DATA_FILE = Raise FileNotFoundError ->
  main_with models w h
  = ((h ++ [ReadJson DATA_FILE;
            Print ("Error: The data file '" ++ to_str DATA_FILE
                   ++ "' was not found.")])%list,
     Ok tt).
Proof.
  intros Hload.
  unfold main_with, bind, try_except_FileNotFoundError, read_json.
  rewrite Hload. unfold print. now rewrite <- app_assoc.
Qed.

(** C7.  When loading the dataset raises [FileNotFoundError], [main]
    prints one line, which names the dataset path, and returns: it reads
    no candidate, runs no program, prints no summary and raises nothing.
    This holds for every list of models, and so for the configured one. *)
Theorem dataset_missing (models : list string) (w : World)
    (h : list event) :
  let h' := (h ++ [ReadJson DATA_FILE;
                   Print "Error: The data file 'humaneval_js.jsonl' was not found."])%list in
  pd_read_json w h DATA_FILE = Raise FileNotFoundError ->
  main_with models w h = (h', Ok tt) /\ main w h = (h', Ok tt).
Proof.
  intros h' Hload. split.
  - exact (main_with_not_found models w h Hload).
  - exact (main_with_not_found LLM_MODELS w h Hload).
Qed.

(** C10.  The configured list of models is empty, so when the dataset
    loads [main] does nothing more: it reads no candidate, runs no
    program and prints nothing. *)
Theorem no_model_configured (w : World) (h : list event) (df : DataFrame) :
  pd_read_json w h DATA_FILE = Ok df ->
  LLM_MODELS = []
  /\ main w h = ((h ++ [ReadJson DATA_FILE])%list, Ok tt).
Proof.
  intros Hload. split; [reflexivity|].
  unfold main. now rewrite (main_with_loaded _ _ _ _ Hload).
Qed.

End MainFacts.

Lemma dataset_missing_witness :
  @main_with Sample.QFloat ["m"] Sample.no_dataset []
  = ([ReadJson DATA_FILE;
      Print "Error: The data file 'humaneval_js.jsonl' was not found."],
     Ok tt).
Proof.
  exact (proj1 (@dataset_missing Sample.QFloat ["m"] Sample.no_dataset []
                  eq_refl)).
Defined.

Lemma no_model_configured_witness :
  @main Sample.QFloat Sample.empty_candidate [] = ([ReadJson DATA_FILE], Ok tt).
Proof.
  exact (proj2 (@no_model_configured Sample.QFloat Sample.empty_candidate []
                  [Sample.task0] eq_refl)).
Defined.

(** ** Which exceptions leave a run *)


(** So does a missing interpreter: [subprocess.run] raises
    [FileNotFoundError] outside the [try] of the loop. *)
Example missing_interpreter_escapes :
  snd (@main_with Sample.QFloat ["m"] Sample.no_interpreter [])
  = Raise FileNotFoundError.
Proof. reflexivity. Qed.

(** ** The scenarios of the specification, run *)

Example scenario_empty_candidate :
  evaluate_model "m" [Sample.task0] Sample.empty_candidate []
  = ([OpenRead Sample.path0;
      Run ["node"; "-e"; String "010" (String "010" "assert(1===1);")]],
     Ok (mkResult 1 1 0 0)).
Proof. reflexivity. Qed.

Example scenario_throwing_candidate :
  let r := mkResult 1 0 1 0 in
  snd (evaluate_model "m" [Sample.task0] Sample.throwing_candidate []) = Ok r
  /\ exception_failed r = 1.
Proof. split; reflexivity. Qed.

Example scenario_summary :
  printed (fst (@print_summary Sample.QFloat "m" (mkResult 3 2 1 0)
                  Sample.empty_candidate []))
  = ["------------------------------------------------------------";
     "Results for model: m";
     "------------------------------------------------------------";
     "Strict accuracy:           66.67 %";
     " Total entries validated:  3";
     " Successful:               2";
     " Failed (Total):           1";
     "  - Assertion Errors:      0";
     "  - Exception Errors:      1 (100.00 % of all failures)";
     "------------------------------------------------------------"].
Proof. reflexivity. Qed.

(** * Further properties *)

(** ** The counters as tallies *)

Lemma update_counts_step (r : EvaluationResult) (s : string) :
  update_counts r s
  = mkResult (total r + 1)
      (correct r + tally PyStr.is_empty [s])
      (failed r + tally is_failure [s])
      (assertion_failed r + tally is_assertion [s]).
Proof.
  unfold update_counts, tally, is_failure, is_assertion.
  cbn [filter].
  destruct (PyStr.is_empty s);
    [|destruct (PyStr.contains "Assertion failed" s)];
    cbn -[Z.add]; f_equal; lia.
Qed.

Lemma tally_cons (f : string -> bool) (s : string) (l : list string) :
  tally f (s :: l) = tally f [s] + tally f l.
Proof.
  unfold tally. cbn [filter]. destruct (f s); cbn [List.length]; lia.
Qed.

(** X1.  Each counter is the number of outcomes of its kind: [total] counts
    all of them, [correct] the empty ones, [failed] the non-empty ones,
    [assertion_failed] those that contain the marker, and
    [exception_failed] the non-empty ones that do not. *)
Theorem update_many_tallies (r : EvaluationResult) (outcomes : list string) :
  let r' := update_many r outcomes in
  total r' = total r + Z.of_nat (List.length outcomes)
  /\ correct r' = correct r + tally PyStr.is_empty outcomes
  /\ failed r' = failed r + tally is_failure outcomes
  /\ assertion_failed r' = assertion_failed r + tally is_assertion outcomes
  /\ exception_failed r'
     = exception_failed r + tally is_exception outcomes.
Proof.
  revert r. induction outcomes as [|s outcomes IH]; intros r.
  - unfold tally. simpl. repeat split; lia.
  - change (update_many r (s :: outcomes))
      with (update_many (update_counts r s) outcomes).
    specialize (IH (update_counts r s)). cbv zeta in IH |- *.
    destruct IH as (Ht & Hc & Hf & Ha & He).
    rewrite Ht, Hc, Hf, Ha, He.
    rewrite (tally_cons _ s outcomes), (tally_cons is_failure s outcomes),
      (tally_cons is_assertion s outcomes),
      (tally_cons is_exception s outcomes).
    unfold exception_failed. rewrite update_counts_step.
    cbn [total correct failed assertion_failed].
    assert (Hx : tally is_failure [s]
                 = tally is_assertion [s] + tally is_exception [s]).
    { unfold tally, is_failure, is_assertion, is_exception. cbn [filter].
      destruct (PyStr.is_empty s); [reflexivity|].
      destruct (PyStr.contains "Assertion failed" s); reflexivity. }
    cbn [List.length]. repeat split; lia.
Qed.

Lemma update_counts_comm (r : EvaluationResult) (a b : string) :
  update_counts (update_counts r a) b = update_counts (update_counts r b) a.
Proof.
  rewrite !update_counts_step. cbn [total correct failed assertion_failed].
  f_equal; lia.
Qed.

(** X2.  The counters do not depend on the order in which the outcomes
    arrive. *)
Theorem update_many_order (r : EvaluationResult) (l1 l2 : list string) :
  Permutation l1 l2 -> update_many r l1 = update_many r l2.
Proof.
  intros Hperm. revert r.
  induction Hperm as [|x l l' _ IH|x y l|l l' l'' _ IH1 _ IH2]; intros r.
  - reflexivity.
  - apply IH.
  - unfold update_many. cbn [fold_left]. now rewrite update_counts_comm.
  - now rewrite IH1.
Qed.

Lemma update_many_order_witness :
  update_many EvaluationResult_init ["Error: x"; ""; "Assertion failed"]
  = update_many EvaluationResult_init [""; "Assertion failed"; "Error: x"].
Proof.
  apply update_many_order.
  apply (Permutation_cons_app [""; "Assertion failed"] [] "Error: x").
  apply Permutation_refl.
Defined.

(** ** Histories *)

Lemma count_app (kind : event -> bool) (a b : list event) :
  count kind (a ++ b) = (count kind a + count kind b)%nat.
Proof. unfold count. now rewrite filter_app, length_app. Qed.

Lemma printed_app (a b : list event) :
  printed (a ++ b) = (printed a ++ printed b)%list.
Proof.
  induction a as [|e a IH]; [reflexivity|].
  destruct e; simpl; now rewrite IH.
Qed.

Lemma headers_app (a b : list event) :
  headers (a ++ b) = (headers a ++ headers b)%list.
Proof. unfold headers. now rewrite printed_app, filter_app. Qed.

Lemma exn_eq_dec (e1 e2 : exn) : {e1 = e2} + {e1 <> e2}.
Proof. decide equality. Qed.

(** ** The loop of [evaluate_model], event by event *)

(** Whatever the world answers, the loop only appends to the history: it
    opens one candidate per row until it returns or raises, never loads the
    dataset and never prints a header.  When it returns, every row was
    either run and counted or skipped with a warning; when it raises, the
    exception is one of a read or of a launch. *)
Lemma evaluate_rows_trace (w : World) (model_path : Path) (rows : list Row) :
  forall (r : EvaluationResult) (h h' : list event)
         (res : result EvaluationResult),
    for_in rows (evaluate_row model_path) r w h = (h', res) ->
    exists added,
      h' = (h ++ added)%list
      /\ headers added = []
      /\ count is_load added = 0%nat
      /\ match res with
         | Ok r' =>
             count is_open added = List.length rows
             /\ total r' = total r + Z.of_nat (count is_run added)
             /\ (count is_run added + count is_print added
                 = List.length rows)%nat
             /\ (counters_consistent r -> counters_consistent r')
         | Raise e =>
             (count is_open added <= List.length rows)%nat
             /\ ((exists h0 p,
                     open_read w h0 p = Raise e /\ e <> FileNotFoundError)
                 \/ (exists h0 args, subprocess_run w h0 args = Raise e))
         end.
Proof.
  induction rows as [|row rows IH]; intros r h h' res H.
  - injection H as <- <-. exists []. rewrite app_nil_r.
    repeat split; try reflexivity; try (simpl; lia);
      unfold counters_consistent in *; lia.
  - set (p := candidate_path model_path row).
    destruct (open_read w h p) as [c | e] eqn:Hread.
    + pose proof (evaluate_row_present w h model_path row r c Hread) as Hrow.
      cbv zeta in Hrow. fold p in Hrow.
      set (args := ["node"; "-e"; test_program c row]) in *.
      destruct (subprocess_run w (h ++ [OpenRead p])%list args)
        as [proc | e] eqn:Hrun.
      * rewrite (for_in_cons _ _ _ _ _ _ _ _ Hrow) in H.
        apply IH in H as (added & -> & Hh & Hl & Hres).
        exists ([OpenRead p; Run args] ++ added)%list.
        split; [now rewrite <- app_assoc|].
        split; [now rewrite headers_app, Hh|].
        split; [now rewrite count_app, Hl|].
        rewrite !count_app.
        change (count is_open [OpenRead p; Run args]) with 1%nat.
        change (count is_run [OpenRead p; Run args]) with 1%nat.
        change (count is_print [OpenRead p; Run args]) with 0%nat.
        destruct res as [r' | e].
        -- destruct Hres as (Ho & Ht & Hrp & Hc).
           rewrite update_counts_total in Ht.
           split; [simpl List.length; lia|].
           split; [lia|]. split; [simpl List.length; lia|].
           intros Hr. now apply Hc, update_counts_consistent.
        -- destruct Hres as (Ho & Hsrc).
           split; [simpl List.length; lia | exact Hsrc].
      * rewrite (for_in_raise _ _ _ _ _ _ _ _ Hrow) in H.
        injection H as <- <-. exists [OpenRead p; Run args].
        repeat split; try reflexivity.
        -- change (count is_open [OpenRead p; Run args]) with 1%nat.
           simpl List.length; lia.
        -- right. eauto.
    + destruct (exn_eq_dec e FileNotFoundError) as [-> | Hne].
      * pose proof (evaluate_row_missing w h model_path row r Hread) as Hrow.
        fold p in Hrow.
        rewrite (for_in_cons _ _ _ _ _ _ _ _ Hrow) in H.
        apply IH in H as (added & -> & Hh & Hl & Hres).
        exists (skipped model_path row ++ added)%list.
        split; [unfold skipped, warning; fold p; now rewrite <- app_assoc|].
        split; [now rewrite headers_app, Hh|].
        split; [now rewrite count_app, Hl|].
        rewrite !count_app.
        change (count is_open (skipped model_path row)) with 1%nat.
        change (count is_run (skipped model_path row)) with 0%nat.
        change (count is_print (skipped model_path row)) with 1%nat.
        destruct res as [r' | e].
        -- destruct Hres as (Ho & Ht & Hrp & Hc).
           split; [simpl List.length; lia|].
           split; [lia|]. split; [simpl List.length; lia | exact Hc].
        -- destruct Hres as (Ho & Hsrc).
           split; [simpl List.length; lia | exact Hsrc].
      * pose proof (evaluate_row_unreadable w h model_path row r e Hread Hne)
          as Hrow.
        fold p in Hrow.
        rewrite (for_in_raise _ _ _ _ _ _ _ _ Hrow) in H.
        injection H as <- <-. exists [OpenRead p].
        repeat split; try reflexivity.
        -- change (count is_open [OpenRead p]) with 1%nat.
           simpl List.length; lia.
        -- left. eauto.
Qed.

(** X3.  When [evaluate_model] returns, it has opened the candidate of every
    task once; [total] is the number of programs it ran; every task was
    either run or skipped with one warning, so [total] is at most the
    number of tasks; and the counters are consistent. *)
Theorem evaluate_model_accounting (w : World) (model_name : string)
    (df : DataFrame) (h h' : list event) (r : EvaluationResult) :
  evaluate_model model_name df w h = (h', Ok r) ->
  exists added,
    h' = (h ++ added)%list
    /\ count is_open added = List.length df
    /\ total r = Z.of_nat (count is_run added)
    /\ (count is_run added + count is_print added = List.length df)%nat
    /\ total r <= Z.of_nat (List.length df)
    /\ correct r + failed r = total r
    /\ 0 <= assertion_failed r <= failed r.
Proof.
  intros H. unfold evaluate_model in H.
  apply evaluate_rows_trace in H as (added & Hh & _ & _ & Ho & Ht & Hrp & Hc).
  destruct (Hc init_consistent) as (Hsum & _ & Ha).
  exists added. cbn [total EvaluationResult_init] in Ht.
  repeat split; try assumption; lia.
Qed.

Lemma evaluate_model_accounting_witness :
  exists added,
    [OpenRead Sample.path0;
     Run ["node"; "-e"; String "010" (String "010" "assert(1===1);")]]
    = ([] ++ added)%list
    /\ count is_open added = 1%nat
    /\ total (mkResult 1 1 0 0) = Z.of_nat (count is_run added)
    /\ (count is_run added + count is_print added = 1)%nat
    /\ total (mkResult 1 1 0 0) <= 1
    /\ correct (mkResult 1 1 0 0) + failed (mkResult 1 1 0 0)
       = total (mkResult 1 1 0 0)
    /\ 0 <= assertion_failed (mkResult 1 1 0 0) <= failed (mkResult 1 1 0 0).
Proof.
  exact (evaluate_model_accounting Sample.empty_candidate "m" [Sample.task0]
           [] _ _ eq_refl).
Defined.

(** X4.  When no candidate file of a model exists, [evaluate_model] runs no
    program: it opens each path, prints one warning per task, and returns
    counters that are all zero. *)
Theorem evaluate_model_all_missing (w : World) (model_name : string)
    (df : DataFrame) (h : list event) :
  (forall h0 p, open_read w h0 p = Raise FileNotFoundError) ->
  evaluate_model model_name df w h
  = ((h ++ flat_map (skipped (BASE_RESULTS_PATH </> model_name)) df)%list,
     Ok EvaluationResult_init).
Proof.
  intros Hmiss. unfold evaluate_model.
  generalize EvaluationResult_init as r. revert h.
  induction df as [|row df IH]; intros h r.
  - simpl. unfold ret. now rewrite app_nil_r.
  - pose proof (evaluate_row_missing w h (BASE_RESULTS_PATH </> model_name)
                  row r (Hmiss _ _)) as Hrow.
    rewrite (for_in_cons _ _ _ _ _ _ _ _ Hrow), IH.
    cbn [flat_map]. now rewrite <- app_assoc.
Qed.

Lemma evaluate_model_all_missing_witness :
  evaluate_model "m" [Sample.task0; mkRow "HumanEval/1" "assert(2===2);"]
    Sample.missing_candidate []
  = ([OpenRead Sample.path0;
      Print "Warning: File not found, skipping: results-cleaned/m/HumanEval-0.js";
      OpenRead (parse "results-cleaned/m/HumanEval-1.js");
      Print "Warning: File not found, skipping: results-cleaned/m/HumanEval-1.js"],
     Ok (mkResult 0 0 0 0)).
Proof.
  rewrite (evaluate_model_all_missing Sample.missing_candidate "m" _ []
             (fun _ _ => eq_refl)).
  reflexivity.
Defined.

(** ** Only the standard error matters *)

Lemma evaluate_row_same_stderr (w1 w2 : World) (model_path : Path)
    (row : Row) (r : EvaluationResult) (h : list event) :
  same_stderr w1 w2 ->
  evaluate_row model_path row r w1 h = evaluate_row model_path row r w2 h.
Proof.
  intros [Hfiles Hnode].
  unfold evaluate_row, bind, try_except_FileNotFoundError, open_and_read.
  rewrite Hfiles.
  destruct (open_read w2 h (candidate_path model_path row)) as [c | e];
    [|destruct e; reflexivity].
  unfold execute_js_test, bind, run, ret.
  match goal with
  | |- context [subprocess_run w1 ?h1 ?args] =>
      specialize (Hnode h1 args);
      destruct (subprocess_run w1 h1 args), (subprocess_run w2 h1 args)
  end; try contradiction; congruence.
Qed.

(** X5.  The result and the history of [evaluate_model] are the same in two
    worlds that hold the same files and whose interpreters write the same
    standard error: exit codes and standard outputs never count. *)
Theorem evaluate_model_stderr_only (w1 w2 : World) (model_name : string)
    (df : DataFrame) (h : list event) :
  same_stderr w1 w2 ->
  evaluate_model model_name df w1 h = evaluate_model model_name df w2 h.
Proof.
  intros Hsame. unfold evaluate_model.
  generalize EvaluationResult_init as r. revert h.
  induction df as [|row df IH]; intros h r; [reflexivity|].
  cbn [for_in]. unfold bind.
  rewrite (evaluate_row_same_stderr w1 w2 _ row r h Hsame).
  destruct (evaluate_row (BASE_RESULTS_PATH </> model_name) row r w2 h)
    as [h1 [r1 | e]]; [apply IH | reflexivity].
Qed.

Lemma evaluate_model_stderr_only_witness :
  evaluate_model "m" [Sample.task0]
    (Sample.world (Ok [Sample.task0]) [(Sample.path0, "throw new Error('x')")]
       [] (fun a => Ok (Sample.fake_node 0 a))) []
  = evaluate_model "m" [Sample.task0] Sample.throwing_candidate [].
Proof.
  apply evaluate_model_stderr_only. split.
  - intros h p. reflexivity.
  - intros h args. simpl. unfold Sample.fake_node.
    destruct args as [|a [|b [|c [|d args]]]]; try reflexivity.
    destruct (PyStr.contains "throw" c); [reflexivity|].
    destruct (PyStr.contains "assert(false)" c); reflexivity.
Defined.

(** ** The summary block *)

Section SummaryBlock.

Context {F : PyFloat}.

Lemma print_summary_given_rates (model_name : string) (r : EvaluationResult)
    (w : World) (h : list event) (n m : number) (s t : string) :
  pass_rate r = Ok n -> exception_rate r = Ok m ->
  format_2f n = Ok s -> format_2f m = Ok t ->
  print_summary model_name r w h
  = ((h ++ map Print (summary_lines model_name r s t))%list, Ok tt).
Proof.
  intros Hn Hm Hs Ht.
  unfold print_summary, bind, lift, print. rewrite Hn, Hm, Hs, Ht.
  rewrite <- !app_assoc. reflexivity.
Qed.



Lemma print_summary_block (model_name : string) (r : EvaluationResult)
    (w : World) (h : list event) :
  counters_consistent r ->
  exists s t,
    print_summary model_name r w h
    = ((h ++ map Print (summary_lines model_name r s t))%list, Ok tt).
Proof.
  intros (Hsum & Hc & Ha).
  destruct (rates_of_consistent r Hsum Hc Ha)
    as (n & m & s & t & Hn & Hm & Hs & Ht).
  exists s, t. now apply (print_summary_given_rates model_name r w h n m).
Qed.

Lemma summary_block_events (model_name : string) (r : EvaluationResult)
    (s t : string) :
  let block := map Print (summary_lines model_name r s t) in
  headers block = [header model_name]
  /\ count is_load block = 0%nat
  /\ count is_open block = 0%nat
  /\ count is_run block = 0%nat.
Proof.
  cbv zeta. repeat split; reflexivity.
Qed.

(** ** The loop of [main] *)

Lemma models_loop_trace (w : World) (df : DataFrame) (models : list string) :
  forall (h h' : list event) (res : result unit),
    for_in models
      (fun llm _ =>
         model_results <- evaluate_model llm df ;;
         print_summary llm model_results)
      tt w h = (h', res) ->
    exists added,
      h' = (h ++ added)%list
      /\ count is_load added = 0%nat
      /\ match res with
         | Ok _ =>
             headers added = map header models
             /\ count is_open added
                = (List.length models * List.length df)%nat
         | Raise e =>
             ((exists h0 p,
                  open_read w h0 p = Raise e /\ e <> FileNotFoundError)
              \/ (exists h0 args, subprocess_run w h0 args = Raise e))
             /\ exists done llm rest,
                  models = (done ++ llm :: rest)%list
                  /\ headers added = map header done
         end.
Proof.
  induction models as [|llm models IH]; intros h h' res H.
  - injection H as <- <-. exists []. rewrite app_nil_r. now repeat split.
  - cbn [for_in] in H. unfold bind in H.
    destruct (evaluate_model llm df w h) as [h1 [r | e]] eqn:He.
    + unfold evaluate_model in He.
      apply evaluate_rows_trace in He
        as (added1 & -> & Hh1 & Hl1 & Ho1 & _ & _ & Hc).
      destruct (print_summary_block llm r w (h ++ added1)%list
                  (Hc init_consistent)) as (s & t & Hp).
      rewrite Hp in H.
      destruct (summary_block_events llm r s t) as (Bh & Bl & Bo & _).
      apply IH in H as (added2 & -> & Hl2 & Hres).
      exists (added1 ++ map Print (summary_lines llm r s t) ++ added2)%list.
      split; [now rewrite <- !app_assoc|].
      split; [rewrite !count_app; lia|].
      destruct res as [u | e].
      * destruct Hres as (Hh2 & Ho2). split.
        -- rewrite !headers_app, Hh1, Bh, Hh2. reflexivity.
        -- rewrite !count_app, Ho1, Bo, Ho2. simpl List.length. lia.
      * destruct Hres as (Hsrc & done & llm' & rest & -> & Hh2).
        split; [exact Hsrc|].
        exists (llm :: done), llm', rest. split; [reflexivity|].
        rewrite !headers_app, Hh1, Bh, Hh2. reflexivity.
    + injection H as <- <-. unfold evaluate_model in He.
      apply evaluate_rows_trace in He as (added1 & -> & Hh1 & Hl1 & _ & Hsrc).
      exists added1. split; [reflexivity|]. split; [exact Hl1|].
      split; [exact Hsrc|]. now exists [], llm, models.
Qed.

(** X7.  When the dataset loads and [main] returns, it has loaded the dataset
    once, has opened the candidate of every task once for every model, and
    has printed one summary per configured model, in the order of the
    list. *)
Theorem main_one_summary_per_model (models : list string) (w : World)
    (h h' : list event) (df : DataFrame) :
  pd_read_json w h DATA_FILE = Ok df ->
  main_with models w h = (h', Ok tt) ->
  exists added,
    h' = (h ++ ReadJson DATA_FILE :: added)%list
    /\ count is_load added = 0%nat
    /\ headers added = map header models
    /\ count is_open added = (List.length models * List.length df)%nat.
Proof.
  intros Hload H. rewrite (main_with_loaded _ _ _ _ Hload) in H.
  apply models_loop_trace in H as (added & -> & Hl & Hh & Ho).
  exists added. rewrite <- app_assoc. now repeat split.
Qed.

End SummaryBlock.


Lemma main_one_summary_per_model_witness :
  exists added,
    fst (@main_with Sample.QFloat ["a"; "b"] Sample.missing_candidate [])
    = ([] ++ ReadJson DATA_FILE :: added)%list
    /\ count is_load added = 0%nat
    /\ headers added = ["Results for model: a"; "Results for model: b"]
    /\ count is_open added = 2%nat.
Proof.
  exact (@main_one_summary_per_model Sample.QFloat ["a"; "b"]
           Sample.missing_candidate [] _ [Sample.task0] eq_refl eq_refl).
Defined.

(** ** Which tasks share a candidate file *)

Lemma string_app_inv_tail (s t u : string) : s ++ u = t ++ u -> s = t.
Proof.
  revert t. induction s as [|c s IH]; intros [|d t] H.
  - reflexivity.
  - exfalso. apply (f_equal String.length) in H.
    simpl in H. rewrite PyStrFacts.length_app in H. lia.
  - exfalso. apply (f_equal String.length) in H.
    simpl in H. rewrite PyStrFacts.length_app in H. lia.
  - simpl in H. injection H as -> H. f_equal. now apply IH.
Qed.

Lemma replace_injective (old new : ascii) (s t : string) :
  PyStr.has_char new s = false -> PyStr.has_char new t = false ->
  PyStr.replace old new s = PyStr.replace old new t -> s = t.
Proof.
  revert t. induction s as [|c s IH]; intros [|d t] Hs Ht H;
    try reflexivity; try discriminate.
  simpl in Hs, Ht, H.
  apply orb_false_iff in Hs as [Hc Hs]. apply orb_false_iff in Ht as [Hd Ht].
  injection H as Hcd H. rewrite (IH t Hs Ht H). f_equal.
  apply Ascii.eqb_neq in Hc, Hd.
  destruct (Ascii.eqb c old) eqn:Ec, (Ascii.eqb d old) eqn:Ed;
    try congruence.
  apply Ascii.eqb_eq in Ec, Ed. congruence.
Qed.

Lemma candidate_path_parts (model_path : Path) (row : Row) :
  candidate_path model_path row
  = mkPath (root model_path)
      (parts model_path ++ [PyStr.replace "/" "-" (task_id row) ++ ".js"]).
Proof.
  unfold candidate_path. apply PathlibFacts.joinpath_component.
  - rewrite PyStrFacts.has_char_app, PyStrFacts.replace_removes
      by discriminate.
    reflexivity.
  - apply PathlibFacts.file_name_not_empty. simpl; lia.
  - apply PathlibFacts.file_name_not_dot. simpl; lia.
Qed.

(** X10.  Two tasks of a model have the same candidate file exactly when their
    identifiers are equal after the replacement of ["/"] by ["-"].  So
    identifiers that differ only in having ["/"] where the other has ["-"]
    share a file, while identifiers without ["-"] never do: for them the
    file determines the task. *)
Theorem candidate_path_collisions (model_path : Path) (r1 r2 : Row) :
  (candidate_path model_path r1 = candidate_path model_path r2
   <-> PyStr.replace "/" "-" (task_id r1) = PyStr.replace "/" "-" (task_id r2))
  /\ (PyStr.has_char "-" (task_id r1) = false ->
      PyStr.has_char "-" (task_id r2) = false ->
      candidate_path model_path r1 = candidate_path model_path r2 ->
      task_id r1 = task_id r2).
Proof.
  assert (Hiff : candidate_path model_path r1 = candidate_path model_path r2
                 -> PyStr.replace "/" "-" (task_id r1)
                    = PyStr.replace "/" "-" (task_id r2)).
  { rewrite !candidate_path_parts. intros H. injection H as H.
    apply app_inv_head in H. injection H as H.
    now apply string_app_inv_tail in H. }
  split; [split|].
  - exact Hiff.
  - intros H. unfold candidate_path. now rewrite H.
  - intros H1 H2 H. apply (replace_injective "/" "-"); auto.
Qed.

Lemma candidate_path_collisions_witness :
  candidate_path (BASE_RESULTS_PATH </> "m") (mkRow "Human/Eval-0" "t1")
  = candidate_path (BASE_RESULTS_PATH </> "m") (mkRow "Human-Eval/0" "t2")
  /\ "HumanEval/0" = "HumanEval/0".
Proof.
  split.
  - apply (candidate_path_collisions (BASE_RESULTS_PATH </> "m")
             (mkRow "Human/Eval-0" "t1") (mkRow "Human-Eval/0" "t2")).
    reflexivity.
  - apply (candidate_path_collisions (BASE_RESULTS_PATH </> "m")
             (mkRow "HumanEval/0" "t1") (mkRow "HumanEval/0" "t2"));
      reflexivity.
Defined.

(** * The program on any frame *)

(** ** One row *)


Section OneSeries.

Variables (w : World) (h : list event).
Variables (model_path : Path) (row : Series) (results : EvaluationResult).
Variable task_id : string.
Hypothesis Hid : task_id_replace row = Ok task_id.

Let file_path := model_path </> (task_id ++ ".js").





End OneSeries.

(** On a row of strings the body is the one of the typed program. *)
Lemma evaluate_series_of_row (model_path : Path) (row : Row)
    (results : EvaluationResult) (w : World) (h : list event) :
  evaluate_series model_path (series_of_row row) results w h
  = evaluate_row model_path row results w h.
Proof. reflexivity. Qed.

(** ** The loop over the rows *)



(** ** [main] on any frame *)

Section FrameRuns.

Context {F : PyFloat}.








End FrameRuns.




(** ** Frames of strings: the typed program *)

Lemma for_in_ext {A S} (xs : list A) (body1 body2 : A -> S -> M S) :
  (forall x s w h, body1 x s w h = body2 x s w h) ->
  forall s w h, for_in xs body1 s w h = for_in xs body2 s w h.
Proof.
  intros Hext. induction xs as [|x xs IH]; intros s w h; [reflexivity|].
  cbn [for_in]. unfold bind. rewrite Hext.
  destruct (body2 x s w h) as [h1 [s1 | e]]; [apply IH | reflexivity].
Qed.

Lemma for_in_map {A B S} (f : A -> B) (xs : list A) (body : B -> S -> M S) :
  forall s w h,
    for_in (map f xs) body s w h = for_in xs (fun x => body (f x)) s w h.
Proof.
  induction xs as [|x xs IH]; intros s w h; [reflexivity|].
  cbn [map for_in]. unfold bind.
  destruct (body (f x) s w h) as [h1 [s1 | e]]; [apply IH | reflexivity].
Qed.

(** On a frame of strings [evaluate_frame] is [evaluate_model]. *)
Lemma evaluate_frame_of (model_name : string) (df : DataFrame) (w : World)
    (h : list event) :
  evaluate_frame model_name (frame_of df) w h = evaluate_model model_name df w h.
Proof.
  unfold evaluate_frame, evaluate_model, frame_of.
  rewrite for_in_map. apply for_in_ext.
  intros row r w0 h0. apply evaluate_series_of_row.
Qed.

(** With a loader that returns frames of strings, [main_on] is
    [main_with]: what is proved of the typed program holds of the program
    on such frames. *)
Lemma main_on_loader_of {F : PyFloat} (models : list string) (w : World)
    (h : list event) :
  main_on (loader_of w) models w h = main_with models w h.
Proof.
  unfold main_on, main_with, bind, try_except_FileNotFoundError,
    read_json_frame, read_json, loader_of.
  destruct (pd_read_json w h DATA_FILE) as [df | e]; [|now destruct e].
  apply for_in_ext. intros llm u w0 h0. unfold bind.
  now rewrite evaluate_frame_of.
Qed.

(** The run that refutes the claim as stated is a run of the program on
    frames. *)
Example permission_error_escapes_on_frames :
  @main_on Sample.QFloat (loader_of Sample.unreadable_candidate) ["m"]
    Sample.unreadable_candidate []
  = ([ReadJson DATA_FILE; OpenRead Sample.path0], Raise PermissionError).
Proof. reflexivity. Qed.

(** The run of [Sample.unreadable_for_b] summarises model [a] and nothing
    else. *)
Example summaries_before_the_failure :
  headers (fst (@main_on Sample.QFloat (loader_of Sample.unreadable_for_b)
                  ["a"; "b"; "c"] Sample.unreadable_for_b []))
  = ["Results for model: a"].
Proof. reflexivity. Qed.
